(** * Stone Soup: the Kalman, Extended Kalman and Unscented Kalman updaters

    A shallow embedding of [stonesoup/updater/kalman.py].

    There are two models.  In the first, arrays are MathComp matrices over
    an ordered field [F]: the arithmetic is exact, and [numpy.linalg.inv]
    fails exactly on the singular matrices.  State vectors are columns of
    height [N], measurement vectors columns of height [M]; the typed
    dimensions stand for shape-compatible arrays.  It settles what the
    methods compute and in which order, which model they use and which
    exception ends them.

    The second model, [F64], has the arithmetic of numpy: arrays of
    binary64 numbers and rounded operations.  It settles what depends on
    rounding: when [numpy.linalg.inv] raises, and whether the covariance
    that [update] returns is symmetric.

    Python exceptions and the order in which the operations run are kept by
    a small monad: a computation yields the list of the operations it
    performed, and either the exception that stopped it or its value. *)

From Stdlib Require Import String.
From Stdlib Require PrimFloat Uint63 BinInt.
From mathcomp Require Import ssreflect ssrfun ssrbool eqtype ssrnat seq choice.
From mathcomp Require Import fintype bigop order ssralg ssrnum matrix mxalgebra rat.

Set Implicit Arguments.
Unset Strict Implicit.
Unset Printing Implicit Defensive.

Import GRing.Theory Num.Theory Order.POrderTheory.
Local Open Scope ring_scope.

(** ** Exceptions, events and the computation monad *)

(** The exceptions the module can end with.  [AttributeError ty attr] is
    Python's "'ty' object has no attribute 'attr'"; [LinAlgError] is the
    exception [numpy.linalg.inv] raises on a singular matrix. *)
Inductive exn : Type :=
  | AttributeError (ty attr : string)
  | LinAlgError (msg : string).

(** What a computation does, in the order it does it: calls into the
    measurement model, array operations, and calls of the two helpers of
    [stonesoup.functions]. *)
Inductive event : Type :=
  | EvFunction | EvMatrix | EvJacobian | EvCovar
  | EvMatmul | EvTranspose | EvAdd | EvSub | EvInv
  | EvGauss2sigma | EvUnscentedTransform.

(** Which events are linear algebra.  The array operators and
    [numpy.linalg.inv] are; calls into the measurement model are not
    counted.  Modelled from the spec for the two helpers, which are not
    defined in the module: sigma points and weights are generated from the
    predicted mean and covariance, and the unscented transform rebuilds
    mean, covariance and cross covariance as weighted combinations, so
    both work on arrays. *)
Definition is_linalg (e : event) : bool :=
  match e with
  | EvFunction | EvMatrix | EvJacobian | EvCovar => false
  | _ => true
  end.

Definition comp (A : Type) : Type := (seq event * (exn + A))%type.

Definition ret {A} (a : A) : comp A := ([::], inr a).
Definition raise {A} (e : exn) : comp A := ([::], inl e).
Definition tick {A} (ev : event) (a : A) : comp A := ([:: ev], inr a).

Definition bind {A B} (m : comp A) (f : A -> comp B) : comp B :=
  match m with
  | (t, inl e) => (t, inl e)
  | (t, inr a) => let: (t', r) := f a in (t ++ t', r)
  end.

Notation "x <- m ;; k" := (bind m (fun x => k))
  (at level 100, m at next level, right associativity).

Definition trace {A} (m : comp A) : seq event := m.1.
Definition outcome {A} (m : comp A) : exn + A := m.2.

Section Updaters.

Variable F : realFieldType.
Variables N M : nat.
Variable Timestamp : Type.

(** ** Data model *)

(** A measurement model ([stonesoup.models.measurement]): [function] and
    [covar] are there on every model, [matrix] on linear ones, [jacobian]
    on differentiable ones.  An absent method is [None]. *)
Record MeasurementModel : Type := mkModel {
  mm_function : 'cV[F]_N -> 'cV[F]_M -> 'cV[F]_M;
  mm_covar : 'M[F]_M;
  mm_matrix : option 'M[F]_(M, N);
  mm_jacobian : option ('cV[F]_N -> 'M[F]_(M, N))
}.

Record GaussianState : Type := mkState {
  gs_state_vector : 'cV[F]_N;
  gs_covar : 'M[F]_N;
  gs_timestamp : Timestamp
}.

Record Detection : Type := mkDetection {
  det_state_vector : 'cV[F]_M;
  det_timestamp : Timestamp;
  det_measurement_model : option MeasurementModel
}.

Record SingleHypothesis : Type := mkHypothesis {
  prediction : GaussianState;
  measurement : Detection
}.

Record GaussianMeasurementPrediction : Type := mkPrediction {
  gmp_state_vector : 'cV[F]_M;
  gmp_covar : 'M[F]_M;
  gmp_timestamp : Timestamp;
  gmp_cross_covar : 'M[F]_(N, M)
}.

Record GaussianStateUpdate : Type := mkUpdate {
  gsu_state_vector : 'cV[F]_N;
  gsu_covar : 'M[F]_N;
  gsu_hypothesis : SingleHypothesis;
  gsu_timestamp : Timestamp
}.

(** The three classes; the unscented one carries alpha, beta and kappa. *)
Inductive updater_class : Type :=
  | KalmanUpdater
  | ExtendedKalmanUpdater
  | UnscentedKalmanUpdater (alpha beta kappa : F).

Record Updater : Type := mkUpdater {
  cls : updater_class;
  measurement_model : option MeasurementModel
}.

(** ** Attribute access and array operations *)

Definition NoneType : string := "NoneType".
Definition ModelType : string := "MeasurementModel".

(** [m.function(x, noise)] on an optional model. *)
Definition call_function (m : option MeasurementModel)
    (x : 'cV[F]_N) (noise : 'cV[F]_M) : comp 'cV[F]_M :=
  match m with
  | None => raise (AttributeError NoneType "function")
  | Some mm => tick EvFunction (mm_function mm x noise)
  end.

(** [m.covar()]. *)
Definition call_covar (m : option MeasurementModel) : comp 'M[F]_M :=
  match m with
  | None => raise (AttributeError NoneType "covar")
  | Some mm => tick EvCovar (mm_covar mm)
  end.

(** [m.matrix()]. *)
Definition call_matrix (m : option MeasurementModel) : comp 'M[F]_(M, N) :=
  match m with
  | None => raise (AttributeError NoneType "matrix")
  | Some mm =>
      match mm_matrix mm with
      | None => raise (AttributeError ModelType "matrix")
      | Some H => tick EvMatrix H
      end
  end.

(** [m.jacobian(x)]. *)
Definition call_jacobian (m : option MeasurementModel) (x : 'cV[F]_N)
    : comp 'M[F]_(M, N) :=
  match m with
  | None => raise (AttributeError NoneType "jacobian")
  | Some mm =>
      match mm_jacobian mm with
      | None => raise (AttributeError ModelType "jacobian")
      | Some J => tick EvJacobian (J x)
      end
  end.

(** [hasattr(m, 'matrix')]. *)
Definition has_matrix (m : option MeasurementModel) : bool :=
  match m with
  | Some mm => isSome (mm_matrix mm)
  | None => false
  end.

Definition matmul {m n p} (A : 'M[F]_(m, n)) (B : 'M[F]_(n, p))
  : comp 'M[F]_(m, p) := tick EvMatmul (A *m B).
Definition transpose {m n} (A : 'M[F]_(m, n)) : comp 'M[F]_(n, m) :=
  tick EvTranspose A^T.
Definition add {m n} (A B : 'M[F]_(m, n)) : comp 'M[F]_(m, n) :=
  tick EvAdd (A + B).
Definition sub {m n} (A B : 'M[F]_(m, n)) : comp 'M[F]_(m, n) :=
  tick EvSub (A - B).

(** [numpy.linalg.inv] in exact arithmetic: the inverse, or [LinAlgError]
    on a singular matrix.  ([F64.inv] is the rounded one, which raises
    on a pivot that is exactly zero.) *)
Definition inv {n} (A : 'M[F]_n) : comp 'M[F]_n :=
  if A \in unitmx then tick EvInv (invmx A)
  else ([:: EvInv], inl (LinAlgError "Singular matrix")).

(** ** The helpers of [stonesoup.functions]

    [gauss2sigma] and [unscented_transform] are imported by the module and
    not defined in it: they are parameters here.  Either may raise. *)
Variables SigmaPoints Weights : Type.
Variable gauss2sigma :
  'cV[F]_N -> 'M[F]_N -> F -> F -> F ->
  exn + (SigmaPoints * Weights * Weights).
Variable unscented_transform :
  SigmaPoints -> Weights -> Weights ->
  ('cV[F]_N -> 'cV[F]_M -> 'cV[F]_M) -> 'M[F]_M ->
  exn + ('cV[F]_M * 'M[F]_M * 'M[F]_(N, M)).

(** A call of a helper: one event, and whatever the helper yields. *)
Definition call_helper {A} (ev : event) (r : exn + A) : comp A := ([:: ev], r).

(** Reading the attribute [m.function] without calling it. *)
Definition get_function (m : option MeasurementModel)
    : comp ('cV[F]_N -> 'cV[F]_M -> 'cV[F]_M) :=
  match m with
  | None => raise (AttributeError NoneType "function")
  | Some mm => ret (mm_function mm)
  end.

(** [if measurement_model is None: measurement_model = self.measurement_model] *)
Definition or_default (given default : option MeasurementModel)
    : option MeasurementModel :=
  if given is Some m then Some m else default.

(** ** [measurement_matrix]

    [KalmanUpdater.measurement_matrix] reads [self.measurement_model] and
    looks at neither argument; the unscented class inherits it.
    [ExtendedKalmanUpdater.measurement_matrix] overrides it. *)
Definition measurement_matrix (self : Updater)
    (predicted_state : GaussianState)
    (mmodel : option MeasurementModel) : comp 'M[F]_(M, N) :=
  match cls self with
  | ExtendedKalmanUpdater =>
      let mmodel := or_default mmodel (measurement_model self) in
      if has_matrix mmodel then call_matrix mmodel
      else call_jacobian mmodel (gs_state_vector predicted_state)
  | _ => call_matrix (measurement_model self)
  end.

(** ** [predict_measurement] *)

(** [KalmanUpdater.predict_measurement], inherited by the extended class.
    [noise=[0]] is the zero vector. *)
Definition kalman_predict_measurement (self : Updater)
    (predicted_state : GaussianState)
    (mmodel : option MeasurementModel) : comp GaussianMeasurementPrediction :=
  let mmodel := or_default mmodel (measurement_model self) in
  pred_meas <- call_function mmodel (gs_state_vector predicted_state) 0 ;;
  hh <- measurement_matrix self predicted_state mmodel ;;
  hP <- matmul hh (gs_covar predicted_state) ;;
  hT <- transpose hh ;;
  hPhT <- matmul hP hT ;;
  R <- call_covar mmodel ;;
  innov_cov <- add hPhT R ;;
  hT' <- transpose hh ;;
  meas_cross_cov <- matmul (gs_covar predicted_state) hT' ;;
  ret (mkPrediction pred_meas innov_cov (gs_timestamp predicted_state)
         meas_cross_cov).

(** [UnscentedKalmanUpdater.predict_measurement]. *)
Definition unscented_predict_measurement (self : Updater)
    (alpha beta kappa : F) (predicted_state : GaussianState)
    (mmodel : option MeasurementModel) : comp GaussianMeasurementPrediction :=
  let mmodel := or_default mmodel (measurement_model self) in
  sp <- call_helper EvGauss2sigma
          (gauss2sigma (gs_state_vector predicted_state)
             (gs_covar predicted_state) alpha beta kappa) ;;
  let: (sigma_points, mean_weights, covar_weights) := sp in
  f <- get_function mmodel ;;
  R <- call_covar mmodel ;;
  ut <- call_helper EvUnscentedTransform
          (unscented_transform sigma_points mean_weights covar_weights f R) ;;
  let: (meas_pred_mean, meas_pred_covar, cross_covar) := ut in
  ret (mkPrediction meas_pred_mean meas_pred_covar
         (gs_timestamp predicted_state) cross_covar).

(** Method dispatch on the class of [self]. *)
Definition predict_measurement (self : Updater)
    (predicted_state : GaussianState)
    (mmodel : option MeasurementModel) : comp GaussianMeasurementPrediction :=
  match cls self with
  | UnscentedKalmanUpdater alpha beta kappa =>
      unscented_predict_measurement self alpha beta kappa predicted_state mmodel
  | _ => kalman_predict_measurement self predicted_state mmodel
  end.

(** ** [update] *)

(** [kalman_gain = m_cross_cov @ np.linalg.inv(innov_cov)] *)
Definition kalman_gain (gmp : GaussianMeasurementPrediction)
    : comp 'M[F]_(N, M) :=
  Sinv <- inv (gmp_covar gmp) ;;
  matmul (gmp_cross_covar gmp) Sinv.

(** The posterior mean and covariance, and the returned object. *)
Definition posterior (hypothesis : SingleHypothesis)
    (gmp : GaussianMeasurementPrediction) (gain : 'M[F]_(N, M))
    : comp GaussianStateUpdate :=
  let predicted_state := prediction hypothesis in
  innovation <- sub (det_state_vector (measurement hypothesis))
                  (gmp_state_vector gmp) ;;
  correction <- matmul gain innovation ;;
  posterior_mean <- add (gs_state_vector predicted_state) correction ;;
  KS <- matmul gain (gmp_covar gmp) ;;
  KT <- transpose gain ;;
  KSKT <- matmul KS KT ;;
  posterior_covariance <- sub (gs_covar predicted_state) KSKT ;;
  ret (mkUpdate posterior_mean posterior_covariance hypothesis
         (det_timestamp (measurement hypothesis))).

(** [KalmanUpdater.update], shared by the three classes. *)
Definition update (self : Updater) (hypothesis : SingleHypothesis)
    : comp GaussianStateUpdate :=
  let predicted_state := prediction hypothesis in
  let mmodel :=
    or_default (det_measurement_model (measurement hypothesis))
      (measurement_model self) in
  gmp <- predict_measurement self predicted_state mmodel ;;
  gain <- kalman_gain gmp ;;
  posterior hypothesis gmp gain.

(** The operations of [KalmanUpdater.predict_measurement] and those of
    [update] after the measurement prediction, in the order Python
    evaluates them. *)
Definition kalman_predict_events : seq event :=
  [:: EvFunction; EvMatrix; EvMatmul; EvTranspose; EvMatmul;
      EvCovar; EvAdd; EvTranspose; EvMatmul].

Definition update_events : seq event :=
  [:: EvInv; EvMatmul; EvSub; EvMatmul; EvAdd;
      EvMatmul; EvTranspose; EvMatmul; EvSub].

(** The model [update] hands to [predict_measurement]. *)
Definition resolved (self : Updater) (hypothesis : SingleHypothesis)
    : option MeasurementModel :=
  or_default (det_measurement_model (measurement hypothesis))
    (measurement_model self).

(** ** Properties of covariance matrices *)

Definition symmetric {n} (A : 'M[F]_n) : Prop := A^T = A.


(** ** The linear Gaussian measurement model *)

(** Modelled from the spec: the class [LinearGaussian] of [stonesoup.models]
    is imported by the module and not defined in it.  A linear model has
    the observation function [H x + noise], the noise covariance [R] and
    the fixed observation matrix [H]. *)
Definition LinearGaussian (H : 'M[F]_(M, N)) (R : 'M[F]_M) : MeasurementModel :=
  mkModel (fun x noise => H *m x + noise) R (Some H) None.

End Updaters.

Arguments KalmanUpdater {F}.
Arguments ExtendedKalmanUpdater {F}.

(** ** The one-dimensional scenario

    The numbers of the scenario: predicted mean [0], predicted covariance
    [[1]], a measurement [2], and linear models with noise covariance [[1]]
    and observation matrix [[1]] or [[0]].  Scalars are rationals and
    timestamps are numbers. *)
Module Scenario.

Definition model_one : MeasurementModel rat 1 1 := LinearGaussian 1%:M 1%:M.
Definition model_zero : MeasurementModel rat 1 1 := LinearGaussian 0 1%:M.

(** A model that sees nothing and has no noise: its innovation covariance
    is the zero matrix. *)
Definition model_degenerate : MeasurementModel rat 1 1 := LinearGaussian 0 0.

Definition predicted : GaussianState rat 1 nat := mkState 0 1%:M 0%N.

Definition detection (m : option (MeasurementModel rat 1 1))
    : Detection rat 1 1 nat :=
  mkDetection (2%:M : 'M_1) 1%N m.

Definition hyp (m : option (MeasurementModel rat 1 1))
    : SingleHypothesis rat 1 1 nat :=
  mkHypothesis predicted (detection m).

Definition kalman (m : option (MeasurementModel rat 1 1)) : Updater rat 1 1 :=
  mkUpdater KalmanUpdater m.
Definition extended (m : option (MeasurementModel rat 1 1)) : Updater rat 1 1 :=
  mkUpdater ExtendedKalmanUpdater m.
Definition unscented (m : option (MeasurementModel rat 1 1)) : Updater rat 1 1 :=
  mkUpdater (UnscentedKalmanUpdater (1 / 2) 2 0) m.

(** Stand-ins for the two helpers of [stonesoup.functions], with one sigma
    point and no weights: the unscented class needs some helper to run. *)
Definition gauss2sigma (x : 'cV[rat]_1) (P : 'M[rat]_1) (alpha beta kappa : rat)
    : exn + ('cV[rat]_1 * unit * unit) :=
  inr (x, tt, tt).

Definition unscented_transform (pts : 'cV[rat]_1) (wm wc : unit)
    (f : 'cV[rat]_1 -> 'cV[rat]_1 -> 'cV[rat]_1) (R : 'M[rat]_1)
    : exn + ('cV[rat]_1 * 'M[rat]_1 * 'M[rat]_1) :=
  inr (f pts 0, R, 0).

Definition predict_measurement :=
  @predict_measurement rat 1 1 nat _ _ gauss2sigma unscented_transform.
Definition update :=
  @update rat 1 1 nat _ _ gauss2sigma unscented_transform.

(** The numbers the scenario expects: innovation covariance [[2]], gain
    [[1/2]], posterior mean [1] and posterior covariance [[1/2]]. *)
Definition expected_prediction : GaussianMeasurementPrediction rat 1 1 nat :=
  mkPrediction 0 2%:M 0%N 1%:M.

Definition expected_gain : 'M[rat]_1 := (1 / 2)%:M.

Definition expected_update (m : option (MeasurementModel rat 1 1))
    : GaussianStateUpdate rat 1 1 nat :=
  mkUpdate (1%:M : 'M_1) (1 / 2)%:M (hyp m) 1%N.

(** What comes out when the measurement is not used at all: the prior. *)
Definition prior_as_update (m : option (MeasurementModel rat 1 1))
    : GaussianStateUpdate rat 1 1 nat :=
  mkUpdate 0 1%:M (hyp m) 1%N.

(** A model with a Jacobian and no matrix: the identity observation. *)
Definition model_jacobian : MeasurementModel rat 1 1 :=
  mkModel (fun x noise => x + noise) 1%:M None (Some (fun _ => 1%:M)).

(** A hypothesis whose measurement is the predicted measurement [0]. *)
Definition quiet_hyp : SingleHypothesis rat 1 1 nat :=
  mkHypothesis predicted (mkDetection 0 1%N None).

(** The hypothesis of the scenario with a measurement of the extended
    kind attached. *)
Definition jacobian_hyp : SingleHypothesis rat 1 1 nat :=
  mkHypothesis predicted (mkDetection (2%:M : 'M_1) 1%N (Some model_jacobian)).

End Scenario.

(** ** Helpers that fail *)
Module Faulty.

(** Helpers that raise, as [gauss2sigma] does on a covariance it cannot
    factor. *)
Definition failing_gauss2sigma (x : 'cV[rat]_1) (P : 'M[rat]_1)
    (alpha beta kappa : rat) : exn + ('cV[rat]_1 * unit * unit) :=
  inl (LinAlgError "Matrix is not positive definite").

Definition failing_unscented_transform (pts : 'cV[rat]_1) (wm wc : unit)
    (f : 'cV[rat]_1 -> 'cV[rat]_1 -> 'cV[rat]_1) (R : 'M[rat]_1)
    : exn + ('cV[rat]_1 * 'M[rat]_1 * 'M[rat]_1) :=
  inl (LinAlgError "Singular matrix").

(** [update] run with a helper that raises. *)
Definition update_failing_sigma :=
  @update rat 1 1 nat _ _ failing_gauss2sigma Scenario.unscented_transform.
Definition update_failing_transform :=
  @update rat 1 1 nat _ _ Scenario.gauss2sigma failing_unscented_transform.

End Faulty.

(** * The base and the extended class over float64 arrays

    The same methods once more, with the arithmetic numpy performs: arrays
    of IEEE 754 doubles, every operation rounded to nearest.  This is the
    model for what depends on rounding.  The unscented class is left out:
    all its arithmetic is inside the two helpers.

    What numpy leaves to the libraries under it is fixed as follows.  A
    product of arrays accumulates each entry from left to right, with
    rounded products and sums.  [numpy.linalg.inv] solves A X = 1 the way
    LAPACK's [gesv] does: elimination with partial pivoting, the column
    under a pivot scaled by the reciprocal of the pivot, a pivot that is
    exactly zero being the one reason for the exception, then substitution
    from the last row up. *)
Module F64.

Import PrimFloat.


(** ** Arrays *)

(** An [ndarray] of two dimensions, row by row; all rows have one length. *)
Definition array : Type := seq (seq float).

Definition nrows (A : array) : nat := size A.
Definition ncols (A : array) : nat := size (head [::] A).
Definition get (A : array) (i j : nat) : float :=
  nth 0%float (nth [::] A i) j.

(** ** Exceptions *)

(** Besides the exceptions of the exact model, the [ValueError] of
    operands whose shapes do not fit. *)
Inductive failure : Type :=
  | Raised (e : exn)
  | ValueError (msg : string).

Definition result (A : Type) : Type := (failure + A)%type.

Definition and_then {A B} (m : result A) (f : A -> result B) : result B :=
  match m with
  | inl e => inl e
  | inr a => f a
  end.

Notation "x <-- m ;; k" := (and_then m (fun x => k))
  (at level 100, m at next level, right associativity).

(** ** Array operations *)

(** Broadcasting of one dimension: equal lengths, or one of them 1. *)
Definition broadcast_dim (m n : nat) : option nat :=
  if m == n then Some m
  else if m == 1 then Some n
  else if n == 1 then Some m
  else None.

(** The entry an operand contributes at [(i, j)] of the broadcast result. *)
Definition bget (A : array) (i j : nat) : float :=
  get A (if nrows A == 1 then 0 else i) (if ncols A == 1 then 0 else j).

Definition elementwise (f : float -> float -> float) (A B : array)
    : result array :=
  match broadcast_dim (nrows A) (nrows B),
        broadcast_dim (ncols A) (ncols B) with
  | Some r, Some c =>
      inr [seq [seq f (bget A i j) (bget B i j) | j <- iota 0 c]
          | i <- iota 0 r]
  | _, _ => inl (ValueError "operands could not be broadcast together")
  end.

(** [A + B] and [A - B]. *)
Definition add : array -> array -> result array := elementwise PrimFloat.add.
Definition sub : array -> array -> result array := elementwise PrimFloat.sub.

Definition dot (x y : seq float) : float :=
  foldl (fun acc xy => acc + xy.1 * xy.2)%float 0%float (zip x y).

Definition column (A : array) (j : nat) : seq float :=
  [seq nth 0%float r j | r <- A].

(** [A @ B]. *)
Definition matmul (A B : array) : result array :=
  if ncols A == nrows B then
    inr [seq [seq dot r (column B j) | j <- iota 0 (ncols B)] | r <- A]
  else inl (ValueError "matmul: mismatch in the core dimension").

(** [A.T]. *)
Definition transpose (A : array) : array :=
  [seq column A j | j <- iota 0 (ncols A)].

(** ** [numpy.linalg.inv] *)

(** A row of the system A X = B during the elimination: the row of A from
    the current column on, and the row of B. *)
Definition sysrow : Type := (seq float * seq float)%type.

(** The safe minimum of LAPACK: the smallest normal number. *)
Definition sfmin : float := 0x1p-1022%float.

(** The first row whose leading entry is largest in absolute value. *)
Fixpoint idamax_from (best : float) (besti i : nat) (rows : seq sysrow) : nat :=
  match rows with
  | [::] => besti
  | r :: rs =>
      let a := PrimFloat.abs (head 0%float r.1) in
      if (best <? a)%float then idamax_from a i i.+1 rs
      else idamax_from best besti i.+1 rs
  end.

Definition idamax (rows : seq sysrow) : nat :=
  match rows with
  | [::] => 0
  | r :: rs => idamax_from (PrimFloat.abs (head 0%float r.1)) 0 1 rs
  end.

(** Exchange of the first row and row [p]. *)
Definition swap_first (p : nat) (rows : seq sysrow) : seq sysrow :=
  let none : sysrow := ([::], [::]) in
  nth none rows p :: behead (set_nth none rows p (head none rows)).

(** Elimination with partial pivoting on [n] rows.  [None] when a pivot
    is exactly zero. *)
Fixpoint eliminate (n : nat) (rows : seq sysrow) : option (seq sysrow) :=
  match n with
  | 0 => Some [::]
  | n'.+1 =>
      let rows := swap_first (idamax rows) rows in
      let pr := head ([::], [::]) rows in
      let piv := head 0%float pr.1 in
      if (piv =? 0)%float then None
      else
        let scale a :=
          (if sfmin <=? PrimFloat.abs piv then a * (1 / piv) else a / piv)%float in
        let reduce (r : sysrow) : sysrow :=
          let l := scale (head 0%float r.1) in
          ([seq (ap.1 - l * ap.2)%float | ap <- zip (behead r.1) (behead pr.1)],
           [seq (bp.1 - bp.2 * l)%float | bp <- zip r.2 pr.2]) in
        match eliminate n' [seq reduce r | r <- behead rows] with
        | Some U => Some (pr :: U)
        | None => None
        end
  end.

(** Substitution in the triangular system, from the last row up. *)
Fixpoint substitute (U : seq sysrow) : array :=
  match U with
  | [::] => [::]
  | (u, y) :: rest =>
      let X := substitute rest in
      let y' :=
        foldl (fun acc ux =>
                 [seq (bx.1 - bx.2 * ux.1)%float | bx <- zip acc ux.2])
          y (rev (zip (behead u) X)) in
      [seq (b / head 0%float u)%float | b <- y'] :: X
  end.

Definition eye (n : nat) : array :=
  [seq [seq if i == j then 1%float else 0%float | j <- iota 0 n]
      | i <- iota 0 n].

(** Whether the elimination meets a pivot that is exactly zero. *)
Definition zero_pivot (A : array) : bool :=
  ~~ isSome (eliminate (nrows A) (zip A (eye (nrows A)))).

Definition inv (A : array) : result array :=
  if ncols A == nrows A then
    match eliminate (nrows A) (zip A (eye (nrows A))) with
    | Some U => inr (substitute U)
    | None => inl (Raised (LinAlgError "Singular matrix"))
    end
  else
    inl (Raised (LinAlgError "Last 2 dimensions of the array must be square")).

(** ** Data model *)

Section Updaters.

Variable Timestamp : Type.

Record MeasurementModel : Type := mkModel {
  mm_function : array -> seq float -> result array;
  mm_covar : array;
  mm_matrix : option array;
  mm_jacobian : option (array -> array)
}.

Record GaussianState : Type := mkState {
  gs_state_vector : array;
  gs_covar : array;
  gs_timestamp : Timestamp
}.

Record Detection : Type := mkDetection {
  det_state_vector : array;
  det_timestamp : Timestamp;
  det_measurement_model : option MeasurementModel
}.

Record SingleHypothesis : Type := mkHypothesis {
  prediction : GaussianState;
  measurement : Detection
}.

Record GaussianMeasurementPrediction : Type := mkPrediction {
  gmp_state_vector : array;
  gmp_covar : array;
  gmp_timestamp : Timestamp;
  gmp_cross_covar : array
}.

Record GaussianStateUpdate : Type := mkUpdate {
  gsu_state_vector : array;
  gsu_covar : array;
  gsu_hypothesis : SingleHypothesis;
  gsu_timestamp : Timestamp
}.

Inductive updater_class : Type :=
  | KalmanUpdater
  | ExtendedKalmanUpdater.

Record Updater : Type := mkUpdater {
  cls : updater_class;
  measurement_model : option MeasurementModel
}.

(** ** Calls into the measurement model *)

Definition missing {A} (ty attr : string) : result A :=
  inl (Raised (AttributeError ty attr)).

Definition call_function (m : option MeasurementModel)
    (x : array) (noise : seq float) : result array :=
  match m with
  | None => missing NoneType "function"
  | Some mm => mm_function mm x noise
  end.

Definition call_covar (m : option MeasurementModel) : result array :=
  match m with
  | None => missing NoneType "covar"
  | Some mm => inr (mm_covar mm)
  end.

Definition call_matrix (m : option MeasurementModel) : result array :=
  match m with
  | None => missing NoneType "matrix"
  | Some mm =>
      match mm_matrix mm with
      | None => missing ModelType "matrix"
      | Some H => inr H
      end
  end.

Definition call_jacobian (m : option MeasurementModel) (x : array)
    : result array :=
  match m with
  | None => missing NoneType "jacobian"
  | Some mm =>
      match mm_jacobian mm with
      | None => missing ModelType "jacobian"
      | Some J => inr (J x)
      end
  end.

Definition has_matrix (m : option MeasurementModel) : bool :=
  match m with
  | Some mm => isSome (mm_matrix mm)
  | None => false
  end.

Definition or_default (given default : option MeasurementModel)
    : option MeasurementModel :=
  if given is Some m then Some m else default.

(** ** The methods *)

Definition measurement_matrix (self : Updater)
    (predicted_state : GaussianState)
    (mmodel : option MeasurementModel) : result array :=
  match cls self with
  | ExtendedKalmanUpdater =>
      let mmodel := or_default mmodel (measurement_model self) in
      if has_matrix mmodel then call_matrix mmodel
      else call_jacobian mmodel (gs_state_vector predicted_state)
  | KalmanUpdater => call_matrix (measurement_model self)
  end.

Definition predict_measurement (self : Updater)
    (predicted_state : GaussianState)
    (mmodel : option MeasurementModel) : result GaussianMeasurementPrediction :=
  let mmodel := or_default mmodel (measurement_model self) in
  pred_meas <-- call_function mmodel (gs_state_vector predicted_state)
                  [:: 0%float] ;;
  hh <-- measurement_matrix self predicted_state mmodel ;;
  hP <-- matmul hh (gs_covar predicted_state) ;;
  hPhT <-- matmul hP (transpose hh) ;;
  R <-- call_covar mmodel ;;
  innov_cov <-- add hPhT R ;;
  meas_cross_cov <-- matmul (gs_covar predicted_state) (transpose hh) ;;
  inr (mkPrediction pred_meas innov_cov (gs_timestamp predicted_state)
         meas_cross_cov).

(** [kalman_gain = m_cross_cov @ np.linalg.inv(innov_cov)] *)
Definition kalman_gain (gmp : GaussianMeasurementPrediction) : result array :=
  Sinv <-- inv (gmp_covar gmp) ;;
  matmul (gmp_cross_covar gmp) Sinv.

(** [kalman_gain @ innov_cov @ kalman_gain.T], the term [update] takes
    off the predicted covariance. *)
Definition correction (gain innov_cov : array) : result array :=
  KS <-- matmul gain innov_cov ;;
  matmul KS (transpose gain).

Definition posterior (hypothesis : SingleHypothesis)
    (gmp : GaussianMeasurementPrediction) (gain : array)
    : result GaussianStateUpdate :=
  let predicted_state := prediction hypothesis in
  innovation <-- sub (det_state_vector (measurement hypothesis))
                   (gmp_state_vector gmp) ;;
  step <-- matmul gain innovation ;;
  posterior_mean <-- add (gs_state_vector predicted_state) step ;;
  KSKT <-- correction gain (gmp_covar gmp) ;;
  posterior_covariance <-- sub (gs_covar predicted_state) KSKT ;;
  inr (mkUpdate posterior_mean posterior_covariance hypothesis
         (det_timestamp (measurement hypothesis))).

Definition resolved (self : Updater) (hypothesis : SingleHypothesis)
    : option MeasurementModel :=
  or_default (det_measurement_model (measurement hypothesis))
    (measurement_model self).

Definition update (self : Updater) (hypothesis : SingleHypothesis)
    : result GaussianStateUpdate :=
  let predicted_state := prediction hypothesis in
  let mmodel :=
    or_default (det_measurement_model (measurement hypothesis))
      (measurement_model self) in
  gmp <-- predict_measurement self predicted_state mmodel ;;
  gain <-- kalman_gain gmp ;;
  posterior hypothesis gmp gain.

(** Modelled from the spec: the linear model of [stonesoup.models], with
    the function [H @ x + noise], the noise being a list of one number
    that is broadcast. *)
Definition LinearGaussian (H R : array) : MeasurementModel :=
  mkModel (fun x noise => Hx <-- matmul H x ;; add Hx [:: noise])
    R (Some H) None.

(** ** Properties of covariance arrays *)

(** Square, and equal to its transpose entry by entry. *)
Definition symmetric (A : array) : Prop :=
  ncols A = nrows A
  /\ forall i j : nat,
       (i < nrows A)%N -> (j < nrows A)%N -> get A i j = get A j i.

End Updaters.

(** ** Measures of asymmetry *)




(** ** Inputs of the rounding examples *)









End F64.

Section Theory.

Variable F : realFieldType.
Variables N M : nat.
Variable Timestamp : Type.
Variables SigmaPoints Weights : Type.
Variable gauss2sigma :
  'cV[F]_N -> 'M[F]_N -> F -> F -> F ->
  exn + (SigmaPoints * Weights * Weights).
Variable unscented_transform :
  SigmaPoints -> Weights -> Weights ->
  ('cV[F]_N -> 'cV[F]_M -> 'cV[F]_M) -> 'M[F]_M ->
  exn + ('cV[F]_M * 'M[F]_M * 'M[F]_(N, M)).

Local Abbreviation Model := (MeasurementModel F N M).
Local Abbreviation State := (GaussianState F N Timestamp).
Local Abbreviation Hyp := (SingleHypothesis F N M Timestamp).
Local Abbreviation Upd := (Updater F N M).
Local Abbreviation predict := (predict_measurement gauss2sigma unscented_transform).
Local Abbreviation upd := (update gauss2sigma unscented_transform).

(** *** [update] in terms of the measurement prediction *)

Lemma update_invertible (self : Upd) (h : Hyp) t gmp :
  predict self (prediction h) (resolved self h) = (t, inr gmp) ->
  gmp_covar gmp \in unitmx ->
  upd self h =
    (t ++ update_events,
     inr (mkUpdate
            (gs_state_vector (prediction h)
             + gmp_cross_covar gmp *m invmx (gmp_covar gmp)
               *m (det_state_vector (measurement h) - gmp_state_vector gmp))
            (gs_covar (prediction h)
             - gmp_cross_covar gmp *m invmx (gmp_covar gmp) *m gmp_covar gmp
               *m (gmp_cross_covar gmp *m invmx (gmp_covar gmp))^T)
            h (det_timestamp (measurement h)))).
Proof.
rewrite /resolved /update => -> HS.
by rewrite /= /kalman_gain /inv HS.
Qed.

Lemma update_no_prediction (self : Upd) (h : Hyp) t e :
  predict self (prediction h) (resolved self h) = (t, inl e) ->
  upd self h = (t, inl e).
Proof. by rewrite /resolved /update => ->. Qed.

(** *** Linear algebra *)






(** *** The classes that read the model they are given *)

Lemma extended_update_default_irrelevant (d d' : option Model) (ps : State)
    (z : 'cV[F]_M) (ts : Timestamp) (m : Model) :
  upd (mkUpdater ExtendedKalmanUpdater d)
      (mkHypothesis ps (mkDetection z ts (Some m)))
  = upd (mkUpdater ExtendedKalmanUpdater d')
      (mkHypothesis ps (mkDetection z ts (Some m))).
Proof. by []. Qed.

Lemma unscented_update_default_irrelevant alpha beta kappa
    (d d' : option Model) (ps : State)
    (z : 'cV[F]_M) (ts : Timestamp) (m : Model) :
  upd (mkUpdater (UnscentedKalmanUpdater alpha beta kappa) d)
      (mkHypothesis ps (mkDetection z ts (Some m)))
  = upd (mkUpdater (UnscentedKalmanUpdater alpha beta kappa) d')
      (mkHypothesis ps (mkDetection z ts (Some m))).
Proof. by []. Qed.

(** The base and the extended class agree when the model that is used is
    the updater's own linear model. *)
Lemma kalman_extended_agree_on_default f R H J (ps : State)
    (z : 'cV[F]_M) (ts : Timestamp) :
  upd (mkUpdater KalmanUpdater (Some (mkModel f R (Some H) J)))
      (mkHypothesis ps (mkDetection z ts None))
  = upd (mkUpdater ExtendedKalmanUpdater (Some (mkModel f R (Some H) J)))
      (mkHypothesis ps (mkDetection z ts None)).
Proof. by []. Qed.

(** They agree as well when the model on the measurement has the matrix
    of the default. *)
Lemma kalman_extended_agree_on_same_matrix f0 R0 J0 f R H J (ps : State)
    (z : 'cV[F]_M) (ts : Timestamp) :
  upd (mkUpdater KalmanUpdater (Some (mkModel f0 R0 (Some H) J0)))
      (mkHypothesis ps (mkDetection z ts (Some (mkModel f R (Some H) J))))
  = upd (mkUpdater ExtendedKalmanUpdater (Some (mkModel f0 R0 (Some H) J0)))
      (mkHypothesis ps (mkDetection z ts (Some (mkModel f R (Some H) J)))).
Proof. by []. Qed.

(** *** When [predict_measurement] returns *)

(** The base class with a linear default and no model passed in. *)
Lemma kalman_predict_measurement_default f R H J (ps : State) :
  predict (mkUpdater KalmanUpdater (Some (mkModel f R (Some H) J))) ps None
  = (kalman_predict_events,
     inr (mkPrediction (f (gs_state_vector ps) 0)
            (H *m gs_covar ps *m H^T + R) (gs_timestamp ps)
            (gs_covar ps *m H^T))).
Proof. by []. Qed.

(** The extended class with a model that has a matrix: the matrix of the
    model it is given, whatever the default. *)
Lemma extended_predict_measurement_matrix d f R H J (ps : State) :
  predict (mkUpdater ExtendedKalmanUpdater d) ps
    (Some (mkModel f R (Some H) J))
  = (kalman_predict_events,
     inr (mkPrediction (f (gs_state_vector ps) 0)
            (H *m gs_covar ps *m H^T + R) (gs_timestamp ps)
            (gs_covar ps *m H^T))).
Proof. by []. Qed.

(** The extended class with a model that has no matrix: the Jacobian at
    the predicted mean. *)
Lemma extended_predict_measurement_jacobian d f R J (ps : State) :
  predict (mkUpdater ExtendedKalmanUpdater d) ps
    (Some (mkModel f R None (Some J)))
  = ([:: EvFunction; EvJacobian; EvMatmul; EvTranspose; EvMatmul;
         EvCovar; EvAdd; EvTranspose; EvMatmul],
     inr (mkPrediction (f (gs_state_vector ps) 0)
            (J (gs_state_vector ps) *m gs_covar ps *m (J (gs_state_vector ps))^T
             + R)
            (gs_timestamp ps)
            (gs_covar ps *m (J (gs_state_vector ps))^T))).
Proof. by []. Qed.

(** *** The claims that hold for every input *)

(** C2, as amended.  With no model on the measurement (or passed in) and
    none configured on the updater, [update] and [predict_measurement] end
    with Python's AttributeError for the attribute [function] of [None];
    the module has no error class of its own for a missing model.  On the
    base and the extended class nothing has run by then: no call into a
    model, no array operation.  On the unscented class [gauss2sigma] has
    run on the predicted mean and covariance, and if it raised, that
    exception is the one the caller sees. *)
Theorem update_without_model (c : updater_class F) (ps : State)
    (z : 'cV[F]_M) (ts : Timestamp) :
  let self := mkUpdater c None in
  let h := mkHypothesis ps (mkDetection z ts None) in
  let missing := AttributeError NoneType "function" in
  let failure : seq event * exn :=
    match c with
    | UnscentedKalmanUpdater alpha beta kappa =>
        ([:: EvGauss2sigma],
         if gauss2sigma (gs_state_vector ps) (gs_covar ps)
              alpha beta kappa is inl e then e else missing)
    | _ => ([::], missing)
    end in
  upd self h = (failure.1, inl failure.2)
  /\ predict self ps None = (failure.1, inl failure.2).
Proof.
case: c => [||alpha beta kappa] //=.
rewrite /update /predict_measurement /unscented_predict_measurement /=.
by case: (gauss2sigma _ _ _ _ _) => [e|[[sp wm] wc]].
Qed.

(** C3.  When [predict_measurement] has returned the measurement
    prediction and its innovation covariance S is invertible, [update]
    returns the state update with mean x + K (z - predicted measurement),
    K = Pxz S^-1, with covariance P - K S K^T, with the timestamp of the
    measurement of the hypothesis, and with the hypothesis itself. *)
Theorem update_posterior (self : Upd) (h : Hyp) t gmp :
  predict self (prediction h) (resolved self h) = (t, inr gmp) ->
  gmp_covar gmp \in unitmx ->
  let K := gmp_cross_covar gmp *m invmx (gmp_covar gmp) in
  outcome (upd self h) =
    inr (mkUpdate
           (gs_state_vector (prediction h)
            + K *m (det_state_vector (measurement h) - gmp_state_vector gmp))
           (gs_covar (prediction h) - K *m gmp_covar gmp *m K^T)
           h (det_timestamp (measurement h))).
Proof. by move=> Hp HS; rewrite (update_invertible Hp HS). Qed.

(** C6.  [KalmanUpdater.measurement_matrix] looks at neither argument and
    returns [self.measurement_model.matrix()].  So when
    [predict_measurement] of the base class is given a model, the
    observation matrix is the one of the configured default while the
    predicted mean and the noise covariance are those of the given model;
    and with no default configured the call fails although a model was
    given. *)
Theorem kalman_measurement_matrix_ignores_arguments :
  (forall (d : option Model) (ps : State) (m : option Model),
     measurement_matrix (mkUpdater KalmanUpdater d) ps m = call_matrix d)
  /\ (forall f0 R0 H0 J0 (m1 : Model) (ps : State),
        outcome (predict
                   (mkUpdater KalmanUpdater
                      (Some (mkModel f0 R0 (Some H0) J0))) ps (Some m1))
        = inr (mkPrediction
                 (mm_function m1 (gs_state_vector ps) 0)
                 (H0 *m gs_covar ps *m H0^T + mm_covar m1)
                 (gs_timestamp ps)
                 (gs_covar ps *m H0^T)))
  /\ (forall (m1 : Model) (ps : State),
        outcome (predict (mkUpdater KalmanUpdater None) ps (Some m1))
        = inl (AttributeError NoneType "matrix")).
Proof. by []. Qed.


End Theory.

(** ** The scenario, evaluated *)

Lemma two_unitmx : (2%:M : 'M[rat]_1) \in unitmx.
Proof. by rewrite unitmxE det_scalar1 unitfE. Qed.

Ltac scenario :=
  rewrite /Scenario.update /Scenario.predict_measurement
    /Scenario.kalman /Scenario.extended /Scenario.unscented
    /Scenario.hyp /Scenario.detection /Scenario.predicted
    /Scenario.model_one /Scenario.model_zero /Scenario.model_degenerate
    /LinearGaussian /update /predict_measurement
    /kalman_predict_measurement /unscented_predict_measurement /=.

Lemma scenario_prediction (attached : bool) :
  let hm := if attached then Some Scenario.model_one else None in
  Scenario.predict_measurement (Scenario.kalman (Some Scenario.model_one))
    Scenario.predicted hm
  = (kalman_predict_events, inr Scenario.expected_prediction).
Proof.
by case: attached; scenario; rewrite mulmx0 addr0 !mul1mx trmx1 -raddfD.
Qed.

Lemma scenario_gain :
  kalman_gain Scenario.expected_prediction
  = ([:: EvInv; EvMatmul], inr Scenario.expected_gain).
Proof.
by rewrite /kalman_gain /inv two_unitmx /= mul1mx invmx_scalar /Scenario.expected_gain div1r.
Qed.

Lemma scenario_update_invertible self hm ev gmp :
  Scenario.predict_measurement self Scenario.predicted
    (resolved self (Scenario.hyp hm)) = (ev, inr gmp) ->
  gmp_covar gmp \in unitmx ->
  Scenario.update self (Scenario.hyp hm) =
    (ev ++ update_events,
     inr (mkUpdate
            (0 + gmp_cross_covar gmp *m invmx (gmp_covar gmp)
               *m (2%:M - gmp_state_vector gmp))
            (1%:M - gmp_cross_covar gmp *m invmx (gmp_covar gmp) *m gmp_covar gmp
               *m (gmp_cross_covar gmp *m invmx (gmp_covar gmp))^T)
            (Scenario.hyp hm) 1%N)).
Proof. exact: update_invertible. Qed.

Lemma update_of_expected_prediction self hm ev :
  Scenario.predict_measurement self Scenario.predicted
    (resolved self (Scenario.hyp hm))
  = (ev, inr Scenario.expected_prediction) ->
  Scenario.update self (Scenario.hyp hm)
  = (ev ++ update_events, inr (Scenario.expected_update hm)).
Proof.
move=> Hp; rewrite (scenario_update_invertible Hp two_unitmx) /=.
rewrite add0r subr0 mul1mx invmx_scalar tr_scalar_mx -!scalar_mxM -raddfB /=.
by rewrite mulVf.
Qed.

Lemma scenario_update (attached : bool) :
  let hm := if attached then Some Scenario.model_one else None in
  Scenario.update (Scenario.kalman (Some Scenario.model_one)) (Scenario.hyp hm)
  = (kalman_predict_events ++ update_events,
     inr (Scenario.expected_update hm)).
Proof.
case: attached => hm.
  exact: (@update_of_expected_prediction _ (Some Scenario.model_one) _
            (scenario_prediction true)).
exact: (@update_of_expected_prediction _ None _ (scenario_prediction true)).
Qed.

(** The extended class with any default, and a hypothesis that carries
    [model_one]: the same numbers. *)
Lemma scenario_extended_update (d : option (MeasurementModel rat 1 1)) :
  Scenario.update (Scenario.extended d) (Scenario.hyp (Some Scenario.model_one))
  = (kalman_predict_events ++ update_events,
     inr (Scenario.expected_update (Some Scenario.model_one))).
Proof.
apply: update_of_expected_prediction.
by scenario; rewrite mulmx0 addr0 !mul1mx trmx1 -raddfD.
Qed.

(** The base class with [model_zero] as default, given [model_one]. *)
Lemma scenario_mixed_prediction :
  Scenario.predict_measurement (Scenario.kalman (Some Scenario.model_zero))
    Scenario.predicted (Some Scenario.model_one)
  = (kalman_predict_events, inr (mkPrediction 0 1%:M 0%N 0)).
Proof. by scenario; rewrite trmx0 !mulmx0 addr0 add0r. Qed.

Lemma scenario_mixed_update :
  Scenario.update (Scenario.kalman (Some Scenario.model_zero))
    (Scenario.hyp (Some Scenario.model_one))
  = (kalman_predict_events ++ update_events,
     inr (Scenario.prior_as_update (Some Scenario.model_one))).
Proof.
rewrite (@scenario_update_invertible _ (Some Scenario.model_one) _ _
           scenario_mixed_prediction) /= ?unitmx1 //.
by rewrite !mul0mx addr0 subr0.
Qed.

(** The base class with no default, given [model_one]. *)
Lemma scenario_no_default_prediction :
  Scenario.predict_measurement (Scenario.kalman None)
    Scenario.predicted (Some Scenario.model_one)
  = ([:: EvFunction], inl (AttributeError NoneType "matrix")).
Proof. by []. Qed.

Lemma scenario_no_default_update :
  Scenario.update (Scenario.kalman None)
    (Scenario.hyp (Some Scenario.model_one))
  = ([:: EvFunction], inl (AttributeError NoneType "matrix")).
Proof. by []. Qed.

(** The unscented class with no model anywhere. *)
Lemma scenario_unscented_no_model :
  Scenario.update (Scenario.unscented None) (Scenario.hyp None)
  = ([:: EvGauss2sigma], inl (AttributeError NoneType "function")).
Proof. by []. Qed.

Lemma scenario_extended_prediction (d : option (MeasurementModel rat 1 1)) :
  Scenario.predict_measurement (Scenario.extended d)
    Scenario.predicted (Some Scenario.model_one)
  = (kalman_predict_events, inr Scenario.expected_prediction).
Proof. by scenario; rewrite mulmx0 addr0 !mul1mx trmx1 -raddfD. Qed.

Lemma scenario_means_differ :
  gsu_state_vector (Scenario.expected_update (Some Scenario.model_one))
  != gsu_state_vector (Scenario.prior_as_update (Some Scenario.model_one)).
Proof. exact: matrix_nonzero1. Qed.

(** ** The claims on the scenario *)

(** C1.  On the base class the configured default decides the posterior
    although the measurement of the hypothesis carries a model: with
    [model_one] on the measurement, the default [model_one] gives mean [1]
    and covariance [[1/2]], the default [model_zero] gives back the prior,
    mean [0] and covariance [[1]], and no default gives an AttributeError.
    The two posteriors are different. *)
Theorem kalman_update_follows_default_model :
  let h := Scenario.hyp (Some Scenario.model_one) in
  outcome (Scenario.update (Scenario.kalman (Some Scenario.model_one)) h)
    = inr (Scenario.expected_update (Some Scenario.model_one))
  /\ outcome (Scenario.update (Scenario.kalman (Some Scenario.model_zero)) h)
    = inr (Scenario.prior_as_update (Some Scenario.model_one))
  /\ outcome (Scenario.update (Scenario.kalman None) h)
    = inl (AttributeError NoneType "matrix")
  /\ gsu_state_vector (Scenario.expected_update (Some Scenario.model_one))
     != gsu_state_vector (Scenario.prior_as_update (Some Scenario.model_one)).
Proof.
split; first by rewrite (scenario_update true).
split; first by rewrite scenario_mixed_update.
split; first by rewrite scenario_no_default_update.
exact: scenario_means_differ.
Qed.

(** C2, as stated, fails on the unscented class: with no model on the
    measurement and none on the updater, [update] has run [gauss2sigma],
    which works on the predicted mean and covariance, before it ends
    with the AttributeError. *)
Lemma unscented_update_without_model_runs_gauss2sigma :
  measurement_model (Scenario.unscented None) = None
  /\ det_measurement_model (measurement (Scenario.hyp None)) = None
  /\ Scenario.update (Scenario.unscented None) (Scenario.hyp None)
     = ([:: EvGauss2sigma], inl (AttributeError NoneType "function"))
  /\ has is_linalg
       (trace (Scenario.update (Scenario.unscented None) (Scenario.hyp None))).
Proof. by []. Qed.

(** C4.  [predict_measurement] of the base class, given [model_one] while
    [model_zero] is the default: the innovation covariance is [[1]] and the
    cross covariance [[0]], built on the matrix of the default, not [[2]]
    and [[1]] as the matrix of the given model would make them; with no
    default the call ends with an AttributeError.  The extended class
    returns the prediction of the given model. *)
Theorem kalman_predict_measurement_takes_default_matrix :
  outcome (Scenario.predict_measurement
             (Scenario.kalman (Some Scenario.model_zero))
             Scenario.predicted (Some Scenario.model_one))
    = inr (mkPrediction 0 1%:M 0%N 0)
  /\ outcome (Scenario.predict_measurement (Scenario.kalman None)
                Scenario.predicted (Some Scenario.model_one))
    = inl (AttributeError NoneType "matrix")
  /\ outcome (Scenario.predict_measurement
                (Scenario.extended (Some Scenario.model_zero))
                Scenario.predicted (Some Scenario.model_one))
    = inr Scenario.expected_prediction.
Proof.
split; first by rewrite scenario_mixed_prediction.
split; first by rewrite scenario_no_default_prediction.
by rewrite scenario_extended_prediction.
Qed.

(** C5.  With the linear [model_one] on the measurement of the hypothesis,
    the base and the extended class return different posteriors when the
    default is [model_zero], and with no default the base class fails
    where the extended class returns. *)
Theorem kalman_extended_updates_differ :
  let h := Scenario.hyp (Some Scenario.model_one) in
  outcome (Scenario.update (Scenario.kalman (Some Scenario.model_zero)) h)
    = inr (Scenario.prior_as_update (Some Scenario.model_one))
  /\ outcome (Scenario.update (Scenario.extended (Some Scenario.model_zero)) h)
    = inr (Scenario.expected_update (Some Scenario.model_one))
  /\ outcome (Scenario.update (Scenario.kalman None) h)
    = inl (AttributeError NoneType "matrix")
  /\ outcome (Scenario.update (Scenario.extended None) h)
    = inr (Scenario.expected_update (Some Scenario.model_one))
  /\ gsu_state_vector (Scenario.expected_update (Some Scenario.model_one))
     != gsu_state_vector (Scenario.prior_as_update (Some Scenario.model_one)).
Proof.
split; first by rewrite scenario_mixed_update.
split; first by rewrite scenario_extended_update.
split; first by rewrite scenario_no_default_update.
split; first by rewrite scenario_extended_update.
exact: scenario_means_differ.
Qed.

(** C8.  Predicted mean [0], predicted covariance [[1]], the linear model
    with H = [[1]] and R = [[1]] configured on the updater (and attached to
    the measurement or not), measurement [2]: the innovation covariance is
    [[2]], the gain [[1/2]], the posterior mean [1] and the posterior
    covariance [[1/2]]. *)
Theorem scenario_exact_numbers (attached : bool) :
  let hm := if attached then Some Scenario.model_one else None in
  let self := Scenario.kalman (Some Scenario.model_one) in
  outcome (Scenario.predict_measurement self Scenario.predicted hm)
    = inr Scenario.expected_prediction
  /\ gmp_covar Scenario.expected_prediction = 2%:M
  /\ outcome (kalman_gain Scenario.expected_prediction)
     = inr Scenario.expected_gain
  /\ outcome (Scenario.update self (Scenario.hyp hm))
     = inr (Scenario.expected_update hm)
  /\ gsu_state_vector (Scenario.expected_update hm) = 1%:M
  /\ gsu_covar (Scenario.expected_update hm) = (1 / 2)%:M.
Proof.
move=> hm self.
by rewrite [in LHS]/hm (scenario_prediction attached) scenario_gain
  (scenario_update attached).
Qed.

(** ** The general theorems at the scenario *)

(** [update_posterior] on the scenario, model configured on the updater. *)
Lemma update_posterior_witness :
  Scenario.predict_measurement (Scenario.kalman (Some Scenario.model_one))
    (prediction (Scenario.hyp None))
    (resolved (Scenario.kalman (Some Scenario.model_one)) (Scenario.hyp None))
  = (kalman_predict_events, inr Scenario.expected_prediction)
  /\ gmp_covar Scenario.expected_prediction \in unitmx
  /\ outcome (Scenario.update (Scenario.kalman (Some Scenario.model_one))
                (Scenario.hyp None))
     = inr (mkUpdate
              (0 + 1%:M *m invmx 2%:M *m (2%:M - 0))
              (1%:M - 1%:M *m invmx 2%:M *m 2%:M *m (1%:M *m invmx 2%:M)^T)
              (Scenario.hyp None) 1%N).
Proof.
split; first exact: (scenario_prediction true).
split; first exact: two_unitmx.
exact: (@update_posterior _ _ _ _ _ _ Scenario.gauss2sigma
          Scenario.unscented_transform
          (Scenario.kalman (Some Scenario.model_one)) (Scenario.hyp None)
          _ _ (scenario_prediction true) two_unitmx).
Defined.


(** * Further properties of the updaters *)

Section Properties.

Variable F : realFieldType.
Variables N M : nat.
Variable Timestamp : Type.
Variables SigmaPoints Weights : Type.
Variable gauss2sigma :
  'cV[F]_N -> 'M[F]_N -> F -> F -> F ->
  exn + (SigmaPoints * Weights * Weights).
Variable unscented_transform :
  SigmaPoints -> Weights -> Weights ->
  ('cV[F]_N -> 'cV[F]_M -> 'cV[F]_M) -> 'M[F]_M ->
  exn + ('cV[F]_M * 'M[F]_M * 'M[F]_(N, M)).

Local Abbreviation Model := (MeasurementModel F N M).
Local Abbreviation State := (GaussianState F N Timestamp).
Local Abbreviation Hyp := (SingleHypothesis F N M Timestamp).
Local Abbreviation Upd := (Updater F N M).
Local Abbreviation predict := (predict_measurement gauss2sigma unscented_transform).
Local Abbreviation upd := (update gauss2sigma unscented_transform).

(** *** When [update] returns, and what it returns *)

(** X1.  An exception of [predict_measurement] is the exception of
    [update]: nothing runs after it, no inversion is attempted, and the
    caller sees it unchanged. *)
Theorem update_surfaces_prediction_error (self : Upd) (h : Hyp) t e :
  predict self (prediction h) (resolved self h) = (t, inl e) ->
  upd self h = (t, inl e).
Proof. by move=> Hp; rewrite (update_no_prediction Hp). Qed.

(** X4.  A measurement equal to the predicted measurement leaves the mean
    where it was. *)
Theorem update_mean_fixed_by_predicted_measurement (self : Upd) (h : Hyp) t gmp :
  predict self (prediction h) (resolved self h) = (t, inr gmp) ->
  gmp_covar gmp \in unitmx ->
  det_state_vector (measurement h) = gmp_state_vector gmp ->
  exists2 post, outcome (upd self h) = inr post
    & gsu_state_vector post = gs_state_vector (prediction h).
Proof.
move=> Hp HS Hz; rewrite (update_invertible Hp HS).
by eexists; first by []; rewrite /= Hz subrr mulmx0 addr0.
Qed.

(** X5.  With a zero cross covariance the measurement changes nothing:
    [update] returns the predicted mean and covariance. *)
Theorem update_without_correlation (self : Upd) (h : Hyp) t gmp :
  predict self (prediction h) (resolved self h) = (t, inr gmp) ->
  gmp_covar gmp \in unitmx ->
  gmp_cross_covar gmp = 0 ->
  outcome (upd self h)
  = inr (mkUpdate (gs_state_vector (prediction h)) (gs_covar (prediction h))
           h (det_timestamp (measurement h))).
Proof.
move=> Hp HS HC; rewrite (update_invertible Hp HS) /= HC.
by rewrite !mul0mx addr0 subr0.
Qed.

(** *** The extended class *)

(** X11.  The extended class, given a model with a Jacobian and no matrix:
    [update] linearises at the predicted mean.  The gain and the
    covariances are built on H = J(x), the predicted measurement is the
    function of the model itself at x, and the default plays no part. *)
Theorem extended_update_linearises (d : option Model) (ps : State)
    (z : 'cV[F]_M) (ts : Timestamp) f R J :
  let x := gs_state_vector ps in
  let P := gs_covar ps in
  let S := J x *m P *m (J x)^T + R in
  let K := P *m (J x)^T *m invmx S in
  let h := mkHypothesis ps (mkDetection z ts (Some (mkModel f R None (Some J)))) in
  S \in unitmx ->
  outcome (upd (mkUpdater ExtendedKalmanUpdater d) h)
  = inr (mkUpdate (x + K *m (z - f x 0)) (P - K *m S *m K^T) h ts).
Proof.
move=> x P S K h HS.
have Hp : predict (mkUpdater ExtendedKalmanUpdater d) (prediction h)
            (resolved (mkUpdater ExtendedKalmanUpdater d) h) = _
  := extended_predict_measurement_jacobian gauss2sigma unscented_transform
       d f R J ps.
by rewrite (update_invertible Hp HS).
Qed.

(** X12.  The extended class looks for a matrix first: given a model that
    has one, the prediction is built on it and the Jacobian is not
    evaluated, whether the model has one or not and whatever the default;
    a model with neither ends the call with an AttributeError for
    [jacobian], after the function of the model was called. *)
Theorem extended_matrix_before_jacobian (d : option Model) (ps : State) f R H :
  (forall J,
     predict (mkUpdater ExtendedKalmanUpdater d) ps
       (Some (mkModel f R (Some H) J))
     = (kalman_predict_events,
        inr (mkPrediction (f (gs_state_vector ps) 0)
               (H *m gs_covar ps *m H^T + R) (gs_timestamp ps)
               (gs_covar ps *m H^T))))
  /\ predict (mkUpdater ExtendedKalmanUpdater d) ps
       (Some (mkModel f R None None))
     = ([:: EvFunction], inl (AttributeError ModelType "jacobian")).
Proof. by []. Qed.

(** *** The unscented class *)

(** X13.  The unscented class needs neither a matrix nor a Jacobian: when
    the two helpers return, [predict_measurement] returns what
    [unscented_transform] made of the sigma points, of the function and of
    the noise covariance of the model in use, with the timestamp of the
    predicted state. *)
Theorem unscented_predict_measurement_returns alpha beta kappa
    (d mm : option Model) (m : Model) (ps : State) sp wm wc zm S C :
  or_default mm d = Some m ->
  gauss2sigma (gs_state_vector ps) (gs_covar ps) alpha beta kappa
    = inr (sp, wm, wc) ->
  unscented_transform sp wm wc (mm_function m) (mm_covar m)
    = inr (zm, S, C) ->
  predict (mkUpdater (UnscentedKalmanUpdater alpha beta kappa) d) ps mm
  = ([:: EvGauss2sigma; EvCovar; EvUnscentedTransform],
     inr (mkPrediction zm S (gs_timestamp ps) C)).
Proof.
move=> res Hg Hu.
rewrite /predict_measurement /unscented_predict_measurement /= res Hg /=.
by rewrite Hu.
Qed.

(** X14.  An exception of [gauss2sigma] ends [update] of the unscented
    class at once: the model is not touched, nothing is inverted, and the
    caller sees that exception. *)
Theorem unscented_update_gauss2sigma_error alpha beta kappa
    (d : option Model) (h : Hyp) e :
  gauss2sigma (gs_state_vector (prediction h)) (gs_covar (prediction h))
    alpha beta kappa = inl e ->
  upd (mkUpdater (UnscentedKalmanUpdater alpha beta kappa) d) h
  = ([:: EvGauss2sigma], inl e).
Proof.
move=> Hg.
by rewrite /update /predict_measurement /unscented_predict_measurement /= Hg.
Qed.

(** X15.  An exception of [unscented_transform] ends [update] of the
    unscented class before anything is inverted, and the caller sees that
    exception. *)
Theorem unscented_update_transform_error alpha beta kappa
    (d : option Model) (h : Hyp) (m : Model) sp wm wc e :
  resolved (mkUpdater (UnscentedKalmanUpdater alpha beta kappa) d) h = Some m ->
  gauss2sigma (gs_state_vector (prediction h)) (gs_covar (prediction h))
    alpha beta kappa = inr (sp, wm, wc) ->
  unscented_transform sp wm wc (mm_function m) (mm_covar m) = inl e ->
  upd (mkUpdater (UnscentedKalmanUpdater alpha beta kappa) d) h
  = ([:: EvGauss2sigma; EvCovar; EvUnscentedTransform], inl e).
Proof.
rewrite /resolved /update /predict_measurement /unscented_predict_measurement.
move=> /= res Hg Hu.
have -> : or_default
            (or_default (det_measurement_model (measurement h)) d) d = Some m.
  by rewrite res.
by rewrite Hg /= Hu.
Qed.

(** *** Which model is used *)

(** X16.  Leaving the model out of [predict_measurement] is the same as
    passing the default of the updater, on all three classes; and on the
    extended and the unscented class a model that is passed makes the
    default irrelevant. *)
Theorem omitted_model_is_default (m : Model) (d : option Model) (ps : State)
    alpha beta kappa :
  let predict_measurement :=
    predict_measurement gauss2sigma unscented_transform in
  let unscented := UnscentedKalmanUpdater alpha beta kappa in
  predict_measurement (mkUpdater KalmanUpdater (Some m)) ps None
    = predict_measurement (mkUpdater KalmanUpdater (Some m)) ps (Some m)
  /\ predict_measurement (mkUpdater ExtendedKalmanUpdater (Some m)) ps None
    = predict_measurement (mkUpdater ExtendedKalmanUpdater d) ps (Some m)
  /\ predict_measurement (mkUpdater unscented (Some m)) ps None
    = predict_measurement (mkUpdater unscented d) ps (Some m).
Proof. by []. Qed.

(** X17.  The base and the extended class return the same from [update]
    whenever the default of the updater has a matrix and the model in use
    has the same matrix. *)
Theorem kalman_extended_agree (d : option Model) (h : Hyp) (m0 m : Model) H :
  d = Some m0 ->
  mm_matrix m0 = Some H ->
  resolved (mkUpdater KalmanUpdater d) h = Some m ->
  mm_matrix m = Some H ->
  upd (mkUpdater KalmanUpdater d) h = upd (mkUpdater ExtendedKalmanUpdater d) h.
Proof.
move=> -> H0; rewrite /resolved /update /predict_measurement /=.
rewrite /kalman_predict_measurement /= => res Hm.
have -> : or_default
            (or_default (det_measurement_model (measurement h)) (Some m0))
            (Some m0) = Some m by rewrite res.
by rewrite /measurement_matrix /= /call_matrix H0 Hm.
Qed.

End Properties.

(** ** The further properties at the scenario *)

Lemma one_unitmx : (1%:M : 'M[rat]_1) \in unitmx.
Proof. exact: unitmx1. Qed.

Lemma scenario_innovation_unitmx :
  (1%:M : 'M[rat]_1) *m 1%:M *m (1%:M)^T + 1%:M \in unitmx.
Proof. by rewrite mul1mx trmx1 mul1mx -raddfD; exact: two_unitmx. Qed.

(** [update_surfaces_prediction_error] on the base class without a
    default: [predict_measurement] ends on the missing matrix. *)
Lemma update_surfaces_prediction_error_witness :
  Scenario.predict_measurement (Scenario.kalman None)
    (prediction (Scenario.hyp (Some Scenario.model_one)))
    (resolved (Scenario.kalman None) (Scenario.hyp (Some Scenario.model_one)))
  = ([:: EvFunction], inl (AttributeError NoneType "matrix"))
  /\ Scenario.update (Scenario.kalman None)
       (Scenario.hyp (Some Scenario.model_one))
     = ([:: EvFunction], inl (AttributeError NoneType "matrix")).
Proof.
split; first exact: scenario_no_default_prediction.
exact: (update_surfaces_prediction_error
          (self := Scenario.kalman None)
          (h := Scenario.hyp (Some Scenario.model_one))
          scenario_no_default_prediction).
Defined.

(** [update_mean_fixed_by_predicted_measurement] on the hypothesis whose
    measurement is the predicted measurement. *)
Lemma update_mean_fixed_witness :
  det_state_vector (measurement Scenario.quiet_hyp)
    = gmp_state_vector Scenario.expected_prediction
  /\ exists2 post,
       outcome (Scenario.update (Scenario.kalman (Some Scenario.model_one))
                  Scenario.quiet_hyp) = inr post
       & gsu_state_vector post = gs_state_vector (prediction Scenario.quiet_hyp).
Proof.
split; first by [].
exact: (update_mean_fixed_by_predicted_measurement
          (self := Scenario.kalman (Some Scenario.model_one))
          (h := Scenario.quiet_hyp)
          (scenario_prediction true) two_unitmx (erefl _)).
Defined.

(** [update_without_correlation] on the base class with [model_zero] as
    default: the cross covariance is zero. *)
Lemma update_without_correlation_witness :
  Scenario.predict_measurement (Scenario.kalman (Some Scenario.model_zero))
    Scenario.predicted (Some Scenario.model_one)
  = (kalman_predict_events, inr (mkPrediction 0 1%:M 0%N 0))
  /\ outcome (Scenario.update (Scenario.kalman (Some Scenario.model_zero))
               (Scenario.hyp (Some Scenario.model_one)))
     = inr (mkUpdate 0 1%:M (Scenario.hyp (Some Scenario.model_one)) 1%N).
Proof.
split; first exact: scenario_mixed_prediction.
exact: (update_without_correlation
          (self := Scenario.kalman (Some Scenario.model_zero))
          (h := Scenario.hyp (Some Scenario.model_one))
          scenario_mixed_prediction one_unitmx (erefl _)).
Defined.

(** [extended_update_linearises] on the model with a Jacobian. *)
Lemma extended_update_linearises_witness :
  (1%:M : 'M[rat]_1) *m 1%:M *m (1%:M)^T + 1%:M \in unitmx
  /\ outcome (Scenario.update (Scenario.extended None) Scenario.jacobian_hyp)
     = inr (mkUpdate
              (0 + 1%:M *m (1%:M)^T
                   *m invmx (1%:M *m 1%:M *m (1%:M)^T + 1%:M)
                   *m (2%:M - (0 + 0)))
              (1%:M - 1%:M *m (1%:M)^T
                      *m invmx (1%:M *m 1%:M *m (1%:M)^T + 1%:M)
                      *m (1%:M *m 1%:M *m (1%:M)^T + 1%:M)
                      *m (1%:M *m (1%:M)^T
                          *m invmx (1%:M *m 1%:M *m (1%:M)^T + 1%:M))^T)
              Scenario.jacobian_hyp 1%N).
Proof.
split; first exact: scenario_innovation_unitmx.
exact: (extended_update_linearises
          Scenario.gauss2sigma Scenario.unscented_transform
          None (ps := Scenario.predicted) (2%:M : 'M_1) 1%N
          (fun x noise => x + noise) (R := 1%:M) (J := fun _ => 1%:M)
          scenario_innovation_unitmx).
Defined.

(** [unscented_predict_measurement_returns] with the stand-in helpers. *)
Lemma unscented_predict_measurement_returns_witness :
  Scenario.gauss2sigma (gs_state_vector Scenario.predicted)
    (gs_covar Scenario.predicted) (1 / 2) 2 0 = inr (0, tt, tt)
  /\ Scenario.unscented_transform 0 tt tt
       (mm_function Scenario.model_one) (mm_covar Scenario.model_one)
     = inr (1%:M *m 0 + 0, 1%:M, 0)
  /\ Scenario.predict_measurement (Scenario.unscented None)
       Scenario.predicted (Some Scenario.model_one)
     = ([:: EvGauss2sigma; EvCovar; EvUnscentedTransform],
        inr (mkPrediction (1%:M *m 0 + 0) 1%:M 0%N 0)).
Proof.
split; first by [].
split; first by [].
exact: (unscented_predict_measurement_returns
          (gauss2sigma := Scenario.gauss2sigma)
          (unscented_transform := Scenario.unscented_transform)
          (d := None) (mm := Some Scenario.model_one)
          (m := Scenario.model_one) (ps := Scenario.predicted)
          (erefl _) (erefl _) (erefl _)).
Defined.

(** [unscented_update_gauss2sigma_error] with a [gauss2sigma] that
    raises, and no model anywhere. *)
Lemma unscented_update_gauss2sigma_error_witness :
  Faulty.failing_gauss2sigma (gs_state_vector Scenario.predicted)
    (gs_covar Scenario.predicted) (1 / 2) 2 0
  = inl (LinAlgError "Matrix is not positive definite")
  /\ Faulty.update_failing_sigma (Scenario.unscented None) (Scenario.hyp None)
     = ([:: EvGauss2sigma], inl (LinAlgError "Matrix is not positive definite")).
Proof.
split; first by [].
exact: (unscented_update_gauss2sigma_error
          (gauss2sigma := Faulty.failing_gauss2sigma)
          Scenario.unscented_transform
          None (h := Scenario.hyp None) (erefl _)).
Defined.

(** [unscented_update_transform_error] with an [unscented_transform] that
    raises. *)
Lemma unscented_update_transform_error_witness :
  Faulty.failing_unscented_transform 0 tt tt
    (mm_function Scenario.model_one) (mm_covar Scenario.model_one)
  = inl (LinAlgError "Singular matrix")
  /\ Faulty.update_failing_transform (Scenario.unscented (Some Scenario.model_one))
       (Scenario.hyp None)
     = ([:: EvGauss2sigma; EvCovar; EvUnscentedTransform],
        inl (LinAlgError "Singular matrix")).
Proof.
split; first by [].
exact: (unscented_update_transform_error
          (gauss2sigma := Scenario.gauss2sigma)
          (unscented_transform := Faulty.failing_unscented_transform)
          (d := Some Scenario.model_one) (h := Scenario.hyp None)
          (m := Scenario.model_one) (erefl _) (erefl _) (erefl _)).
Defined.

(** [kalman_extended_agree] on the scenario, with [model_one] as default
    and on the measurement. *)
Lemma kalman_extended_agree_witness :
  mm_matrix Scenario.model_one = Some 1%:M
  /\ Scenario.update (Scenario.kalman (Some Scenario.model_one))
       (Scenario.hyp (Some Scenario.model_one))
     = Scenario.update (Scenario.extended (Some Scenario.model_one))
         (Scenario.hyp (Some Scenario.model_one)).
Proof.
split; first by [].
exact: (@kalman_extended_agree rat 1 1 nat _ _
          Scenario.gauss2sigma Scenario.unscented_transform
          (Some Scenario.model_one) (Scenario.hyp (Some Scenario.model_one))
          Scenario.model_one Scenario.model_one 1%:M
          (erefl _) (erefl _) (erefl _) (erefl _)).
Defined.

(** * What rounding does to [update] *)
Module Rounding.

Import PrimFloat.
Import F64.

Section Facts.

Variable Timestamp : Type.

Local Abbreviation Hyp := (SingleHypothesis Timestamp).

(** *** Entries of an elementwise result *)





(** *** When [inv] raises *)

(** On a square array [inv] fails exactly when a pivot is exactly zero. *)
Lemma inv_fails_on_zero_pivot_only (A : array) :
  ncols A = nrows A ->
  (if inv A is inl _ then true else false) = zero_pivot A.
Proof.
by move=> sq; rewrite /inv /zero_pivot sq eqxx; case: (eliminate _ _).
Qed.

(** *** The claims that depend on rounding *)



End Facts.

(** ** The examples *)







End Rounding.
